(** * akhri: the authentication flow

    A shallow embedding of the two halves of the repository's
    authentication code:

    - the server controller ([registerUser], [loginUser]), which reads the
      request body, calls bcrypt, the user collection and the token signer,
      and answers with a status code and a JSON body;
    - the client thunks ([logIn], [signUp], [logout]), which dispatch state
      transitions around one HTTP call and navigate on success.

    The external collaborators (bcrypt, jsonwebtoken, the database driver,
    the HTTP client) are not part of the sources.  Their answers during one
    call are collected in an environment record; every awaited call may
    either return a value or raise an [Error]. *)

From Stdlib Require Import String List ZArith Bool Lia.
Import ListNotations.
Open Scope string_scope.
Open Scope list_scope.
Set Warnings "-register-all".

(** ** JavaScript values *)

Module JS.

(** The values a parsed JSON body can carry, and [undefined] for an absent
    property.  Numbers are represented by their integral value: the code only
    ever asks whether a number is zero, [NaN] cannot come out of a JSON body,
    and a non-integral number behaves like any other non-zero one. *)
Inductive jsval : Type :=
| JUndefined
| JNull
| JBool (b : bool)
| JNum (n : Z)
| JStr (s : string)
| JArr (items : list jsval)
| JObj (props : list (string * jsval)).

(** [!v] is [negb (truthy v)]: the falsy values are [undefined], [null],
    [false], [0] and the empty string; every object and array is truthy. *)
Definition truthy (v : jsval) : bool :=
  match v with
  | JUndefined => false
  | JNull => false
  | JBool b => b
  | JNum n => negb (n =? 0)%Z
  | JStr s => negb (s =? "")
  | JArr _ => true
  | JObj _ => true
  end.

(** [a || b] of JavaScript: the left operand when it is truthy. *)
Definition js_or (a b : jsval) : jsval := if truthy a then a else b.

(** Structural equality of values, used by the collection to match a
    queried field against a stored one. *)
Fixpoint jsval_eqb (a b : jsval) {struct a} : bool :=
  match a, b with
  | JUndefined, JUndefined => true
  | JNull, JNull => true
  | JBool x, JBool y => Bool.eqb x y
  | JNum x, JNum y => (x =? y)%Z
  | JStr x, JStr y => (x =? y)
  | JArr xs, JArr ys =>
      (fix items_eqb (l1 l2 : list jsval) {struct l1} : bool :=
         match l1, l2 with
         | [], [] => true
         | x :: l1', y :: l2' => jsval_eqb x y && items_eqb l1' l2'
         | _, _ => false
         end) xs ys
  | JObj ps, JObj qs =>
      (fix props_eqb (l1 l2 : list (string * jsval)) {struct l1} : bool :=
         match l1, l2 with
         | [], [] => true
         | (k1, x) :: l1', (k2, y) :: l2' =>
             (k1 =? k2) && jsval_eqb x y && props_eqb l1' l2'
         | _, _ => false
         end) ps qs
  | _, _ => false
  end.

(** An object as the list of its own properties. *)
Definition jsobj : Type := list (string * jsval).

(** [o.k]: the value of property [k], [undefined] when [o] has none. *)
Fixpoint get_prop (k : string) (o : jsobj) : jsval :=
  match o with
  | [] => JUndefined
  | (k', v) :: o' => if k' =? k then v else get_prop k o'
  end.

(** [delete o.k]. *)
Definition del_prop (k : string) (o : jsobj) : jsobj :=
  filter (fun kv => negb (fst kv =? k)) o.

(** [o.k = v]. *)
Definition set_prop (k : string) (v : jsval) (o : jsobj) : jsobj :=
  (k, v) :: del_prop k o.

End JS.
Export JS.

(** ** Exceptions and outcomes of awaited calls *)

(** The collaborators raise [Error] objects.  [response_data] is
    [error.response.data] ([undefined] when the error has no response, as
    for every error raised on the server side). *)
Record Error : Type := mkError {
  message : string;
  response_data : jsval
}.

Inductive outcome (A : Type) : Type :=
| Returned (a : A)
| Raised (e : Error).
Arguments Returned {A} a.
Arguments Raised {A} e.

Definition raised {A : Type} (o : outcome A) : bool :=
  match o with Returned _ => false | Raised _ => true end.

(** ** Computations with a store, a log and exceptions *)

Module Effects.

Section Computation.

(** [S] is the state a computation reads and updates, [L] the type of the
    entries it logs. *)
Variables S L : Type.

(** A computation either returns or raises; the state and the log survive
    a raise. *)
Definition M (A : Type) : Type := S -> outcome A * S * list L.

Definition ret {A : Type} (a : A) : M A :=
  fun s => (Returned a, s, []).

Definition bind {A B : Type} (m : M A) (k : A -> M B) : M B :=
  fun s =>
    match m s with
    | (Returned a, s1, l1) =>
        let '(o, s2, l2) := k a s1 in (o, s2, (l1 ++ l2)%list)
    | (Raised e, s1, l1) => (Raised e, s1, l1)
    end.

(** [try { m } catch (error) { h error }]. *)
Definition try_catch {A : Type} (m : M A) (h : Error -> M A) : M A :=
  fun s =>
    match m s with
    | (Returned a, s1, l1) => (Returned a, s1, l1)
    | (Raised e, s1, l1) =>
        let '(o, s2, l2) := h e s1 in (o, s2, (l1 ++ l2)%list)
    end.

(** An awaited call that answers [r], logged as [c], and leaves the state
    alone. *)
Definition await {A : Type} (r : outcome A) (c : L) : M A :=
  fun s => (r, s, [c]).

End Computation.

Arguments ret {S L A} a.
Arguments bind {S L A B} m k.
Arguments try_catch {S L A} m h.
Arguments await {S L A} r c.

End Effects.
Export Effects.

Notation "x <- m ;; k" := (bind m (fun x => k))
  (at level 61, m at next level, right associativity).
Notation "m ;;; k" := (bind m (fun _ => k))
  (at level 61, right associativity).

(** ** The auth controller *)

Module Server.

(** Modelled from the spec: the schema of [models/userModel.js] is not among
    the sources.  The data model gives a user record the four fields
    [username], [password], [firstname] and [lastname]; the store adds the
    identifier [_id] that the controller reads back.  A document keeps the
    values the request body carried. *)
Record UserDoc : Type := mkUser {
  doc_id : string;
  doc_username : jsval;
  doc_password : jsval;
  doc_firstname : jsval;
  doc_lastname : jsval
}.

(** The first argument of [jwt.sign]:
    [{ username: user.username, id: user._id }]. *)
Record SignPayload : Type := mkPayload {
  payload_username : jsval;
  payload_id : string
}.

(** The third argument of [jwt.sign]: [{ expiresIn: "1h" }]. *)
Record SignOptions : Type := mkOptions {
  expiresIn : string
}.

(** What the libraries answer during one request.  [bcrypt.genSalt] is
    random, and every call can fail: each field gives the outcome for the
    arguments it is called with.  The two [_fault] fields say whether the
    database driver fails on the lookup or on the insert; [new_id] is the
    identifier the model gives a new document. *)
Record Env : Type := mkEnv {
  bcrypt_genSalt : Z -> outcome string;
  bcrypt_hash : jsval -> string -> outcome string;
  bcrypt_compare : jsval -> jsval -> outcome bool;
  jwt_sign : SignPayload -> jsval -> SignOptions -> outcome string;
  JWTKEY : jsval;
  findOne_fault : option Error;
  save_fault : option Error;
  new_id : string
}.

(** One entry per call the controller makes outside itself, with what the
    call answered. *)
Inductive Call : Type :=
| CGenSalt (rounds : Z) (r : outcome string)
| CHash (data : jsval) (salt : string) (r : outcome string)
| CFindOne (username : jsval) (r : outcome (option UserDoc))
| CSave (doc : UserDoc) (r : outcome UserDoc)
| CCompare (data encrypted : jsval) (r : outcome bool)
| CSign (payload : SignPayload) (key : jsval) (opts : SignOptions)
        (r : outcome string)
| CConsoleError (label detail : string).

(** The user collection, in insertion order. *)
Definition Collection : Type := list UserDoc.

Definition M : Type -> Type := Effects.M Collection Call.

Definition genSalt (E : Env) (rounds : Z) : M string :=
  await (bcrypt_genSalt E rounds) (CGenSalt rounds (bcrypt_genSalt E rounds)).

Definition hash (E : Env) (data : jsval) (salt : string) : M string :=
  await (bcrypt_hash E data salt) (CHash data salt (bcrypt_hash E data salt)).

Definition compare (E : Env) (data encrypted : jsval) : M bool :=
  await (bcrypt_compare E data encrypted)
        (CCompare data encrypted (bcrypt_compare E data encrypted)).

Definition sign (E : Env) (p : SignPayload) (key : jsval) (o : SignOptions)
  : M string :=
  await (jwt_sign E p key o) (CSign p key o (jwt_sign E p key o)).

Definition console_error (label detail : string) : M unit :=
  await (Returned tt) (CConsoleError label detail).

(** Modelled from the spec: the collection is "keyed logically by username";
    a lookup by username gives the first stored record with that username,
    or nothing. *)
Definition find_user (username : jsval) (db : Collection) : option UserDoc :=
  find (fun u => jsval_eqb (doc_username u) username) db.

(** [UserModel.findOne({ username })]. *)
Definition findOne (E : Env) (username : jsval) : M (option UserDoc) :=
  fun db =>
    match findOne_fault E with
    | Some e => (Raised e, db, [CFindOne username (Raised e)])
    | None =>
        (Returned (find_user username db), db,
         [CFindOne username (Returned (find_user username db))])
    end.

(** [new UserModel(body)]: the schema's fields of [body], under a new
    identifier. *)
Definition UserModel (E : Env) (body : jsobj) : UserDoc :=
  {| doc_id := new_id E;
     doc_username := get_prop "username" body;
     doc_password := get_prop "password" body;
     doc_firstname := get_prop "firstname" body;
     doc_lastname := get_prop "lastname" body |}.

(** [doc.save()]: the document is added to the collection and returned,
    unless the driver fails, in which case nothing is written. *)
Definition save (E : Env) (doc : UserDoc) : M UserDoc :=
  fun db =>
    match save_fault E with
    | Some e => (Raised e, db, [CSave doc (Raised e)])
    | None => (Returned doc, (db ++ [doc])%list, [CSave doc (Returned doc)])
    end.

(** The JSON bodies the controller sends: [{ message }], a bare string, or
    [{ user, token }]. *)
Inductive ResBody : Type :=
| BMessage (message : string)
| BString (s : string)
| BUserToken (user : UserDoc) (token : string).

(** [res.status(status).json(body)]. *)
Record Response : Type := mkResponse {
  status : Z;
  json : ResBody
}.

Record Request : Type := mkRequest {
  body : jsobj
}.

(** Register new user *)
Definition registerUser (E : Env) (req : Request) : M Response :=
  let username := get_prop "username" (body req) in
  let password := get_prop "password" (body req) in
  let firstname := get_prop "firstname" (body req) in
  let lastname := get_prop "lastname" (body req) in
  if negb (truthy username) || negb (truthy password)
     || negb (truthy firstname) || negb (truthy lastname)
  then ret (mkResponse 400 (BMessage "All fields are required."))
  else
    try_catch
      (salt <- genSalt E 10 ;;
       hashedPass <- hash E password salt ;;
       let body' := set_prop "password" (JStr hashedPass) (body req) in
       let newUser := UserModel E body' in
       oldUser <- findOne E username ;;
       match oldUser with
       | Some _ => ret (mkResponse 400 (BMessage "User already exists"))
       | None =>
           user <- save E newUser ;;
           token <- sign E (mkPayload (doc_username user) (doc_id user))
                         (JWTKEY E) (mkOptions "1h") ;;
           ret (mkResponse 200 (BUserToken user token))
       end)
      (fun error =>
         console_error "Error during registration:" (message error) ;;;
         ret (mkResponse 500 (BMessage "Server Error during registration"))).

(** Login User *)
Definition loginUser (E : Env) (req : Request) : M Response :=
  let username := get_prop "username" (body req) in
  let password := get_prop "password" (body req) in
  if negb (truthy username) || negb (truthy password)
  then ret (mkResponse 400 (BMessage "Username and password are required."))
  else
    try_catch
      (user <- findOne E username ;;
       match user with
       | None => ret (mkResponse 404 (BString "User not found"))
       | Some user =>
           validity <- compare E password (doc_password user) ;;
           if negb validity
           then ret (mkResponse 400 (BString "Incorrect password"))
           else
             token <- sign E (mkPayload (doc_username user) (doc_id user))
                           (JWTKEY E) (mkOptions "1h") ;;
             ret (mkResponse 200 (BUserToken user token))
       end)
      (fun err =>
         console_error "Error during login:" (message err) ;;;
         ret (mkResponse 500 (BMessage "Server Error during login"))).

End Server.
Export Server.

(** ** The client actions *)

Module Client.

(** The actions the thunks dispatch to the store. *)
Inductive Action : Type :=
| AUTH_START
| AUTH_SUCCESS (data : jsval)
| AUTH_FAIL
| LOG_OUT.

(** The second argument of [navigate]: [{ replace: true }]. *)
Record NavigateOptions : Type := mkNavigateOptions {
  replace : bool
}.

(** What an HTTP call resolves to; the thunks read its [data]. *)
Record HttpResponse : Type := mkHttpResponse {
  data : jsval
}.

(** [api/AuthRequests] is not among the sources: the outcome of each of its
    two calls, for the form data it is given. *)
Record Api : Type := mkApi {
  AuthApi_logIn : jsobj -> outcome HttpResponse;
  AuthApi_signUp : jsobj -> outcome HttpResponse
}.

(** What a thunk does to the outside, in order. *)
Inductive Effect : Type :=
| Request_logIn (formData : jsobj)
| Request_signUp (formData : jsobj)
| Dispatch (a : Action)
| Navigate (to : string) (opts : NavigateOptions)
| ConsoleError (label : string) (detail : jsval).

Definition T : Type -> Type := Effects.M unit Effect.

(** The store's [dispatch] and the router's [navigate], as the outside sees
    them: each records what it was called with and returns. *)
Definition store_dispatch (a : Action) : T unit :=
  await (Returned tt) (Dispatch a).

Definition router_navigate (to : string) (opts : NavigateOptions) : T unit :=
  await (Returned tt) (Navigate to opts).

Definition console_error (label : string) (detail : jsval) : T unit :=
  await (Returned tt) (ConsoleError label detail).

Definition api_logIn (api : Api) (formData : jsobj) : T HttpResponse :=
  await (AuthApi_logIn api formData) (Request_logIn formData).

Definition api_signUp (api : Api) (formData : jsobj) : T HttpResponse :=
  await (AuthApi_signUp api formData) (Request_signUp formData).

(** [error?.response?.data || error.message]. *)
Definition error_detail (error : Error) : jsval :=
  js_or (response_data error) (JStr (message error)).

Definition logIn (api : Api) (formData : jsobj)
    (navigate : string -> NavigateOptions -> T unit)
    (dispatch : Action -> T unit) : T unit :=
  dispatch AUTH_START ;;;
  try_catch
    (r <- api_logIn api formData ;;
     dispatch (AUTH_SUCCESS (data r)) ;;;
     navigate "/home" (mkNavigateOptions true))
    (fun error =>
       console_error "Login Error:" (error_detail error) ;;;
       dispatch AUTH_FAIL).

Definition signUp (api : Api) (formData : jsobj)
    (navigate : string -> NavigateOptions -> T unit)
    (dispatch : Action -> T unit) : T unit :=
  dispatch AUTH_START ;;;
  try_catch
    (r <- api_signUp api formData ;;
     dispatch (AUTH_SUCCESS (data r)) ;;;
     navigate "/home" (mkNavigateOptions true))
    (fun error =>
       console_error "Signup Error:" (error_detail error) ;;;
       dispatch AUTH_FAIL).

Definition logout (dispatch : Action -> T unit) : T unit :=
  dispatch LOG_OUT.

(** The effects of a thunk run from the start. *)
Definition effects (t : T unit) : list Effect := snd (t tt).

Definition is_navigate (e : Effect) : bool :=
  match e with Navigate _ _ => true | _ => false end.

End Client.

(** ** Reading a run of the controller *)

Definition response_of {A : Type} (r : outcome A * Collection * list Call)
  : outcome A := fst (fst r).

Definition store_of {A : Type} (r : outcome A * Collection * list Call)
  : Collection := snd (fst r).

Definition calls_of {A : Type} (r : outcome A * Collection * list Call)
  : list Call := snd r.

(** The call raised an exception. *)
Definition call_raised (c : Call) : bool :=
  match c with
  | CGenSalt _ r => raised r
  | CHash _ _ r => raised r
  | CFindOne _ r => raised r
  | CSave _ r => raised r
  | CCompare _ _ r => raised r
  | CSign _ _ _ r => raised r
  | CConsoleError _ _ => false
  end.

(** The call is a [save] that completed. *)
Definition save_completed (c : Call) : bool :=
  match c with
  | CSave _ (Returned _) => true
  | _ => false
  end.

(** The four tests of [registerUser]'s guard, and the two of [loginUser]'s. *)
Definition register_fields_provided (req : Request) : bool :=
  truthy (get_prop "username" (body req))
  && truthy (get_prop "password" (body req))
  && truthy (get_prop "firstname" (body req))
  && truthy (get_prop "lastname" (body req)).

Definition login_fields_provided (req : Request) : bool :=
  truthy (get_prop "username" (body req))
  && truthy (get_prop "password" (body req)).

(** The signer returns a token, and not the empty string, for every payload
    signed under the configured key. *)
Definition signing_succeeds (E : Env) : Prop :=
  forall p o, exists token,
    jwt_sign E p (JWTKEY E) o = Returned token /\ token <> "".

(** ** A concrete environment, for running the controller *)

Module Demo.

Definition type_error (msg : string) : Error := mkError msg JUndefined.

(** A stand-in for bcrypt: the hash is the four-character salt followed by
    the data; it refuses data that is not a string. *)
Definition demo_hash (d : jsval) (salt : string) : outcome string :=
  match d with
  | JStr p => Returned (salt ++ p)%string
  | _ => Raised (type_error "data must be a string or Buffer")
  end.

Definition demo_compare (d encrypted : jsval) : outcome bool :=
  match d, encrypted with
  | JStr p, JStr h => Returned (h =? substring 0 4 h ++ p)%string
  | _, _ => Raised (type_error "data and hash must be strings")
  end.

(** A stand-in for the signer: it needs a string key. *)
Definition demo_sign (p : SignPayload) (key : jsval) (o : SignOptions)
  : outcome string :=
  match key with
  | JStr k => Returned ("jwt." ++ payload_id p ++ "." ++ expiresIn o)%string
  | _ => Raised (type_error "secretOrPrivateKey must have a value")
  end.

Definition demo_env : Env :=
  {| bcrypt_genSalt := fun _ => Returned "s4lt";
     bcrypt_hash := demo_hash;
     bcrypt_compare := demo_compare;
     jwt_sign := demo_sign;
     JWTKEY := JStr "secret";
     findOne_fault := None;
     save_fault := None;
     new_id := "id1" |}.

(** The same libraries with the database down. *)
Definition db_down : Env :=
  {| bcrypt_genSalt := fun _ => Returned "s4lt";
     bcrypt_hash := demo_hash;
     bcrypt_compare := demo_compare;
     jwt_sign := demo_sign;
     JWTKEY := JStr "secret";
     findOne_fault := Some (type_error "connection refused");
     save_fault := Some (type_error "connection refused");
     new_id := "id1" |}.

(** The same libraries with no signing key configured. *)
Definition no_key : Env :=
  {| bcrypt_genSalt := fun _ => Returned "s4lt";
     bcrypt_hash := demo_hash;
     bcrypt_compare := demo_compare;
     jwt_sign := demo_sign;
     JWTKEY := JUndefined;
     findOne_fault := None;
     save_fault := None;
     new_id := "id1" |}.

Definition credentials (username password : string) : jsobj :=
  [("username", JStr username); ("password", JStr password)].

Definition alice : Request :=
  mkRequest [("username", JStr "alice"); ("password", JStr "pw123");
             ("firstname", JStr "A"); ("lastname", JStr "L")].

Definition alice_doc : UserDoc :=
  mkUser "id1" (JStr "alice") (JStr "s4ltpw123") (JStr "A") (JStr "L").

Definition alice_token : string := "jwt.id1.1h".

Definition alice_payload : SignPayload := mkPayload (JStr "alice") "id1".

(** A signer with a one-entry table, and the decoder that reads it back. *)
Definition table_sign (p : SignPayload) (key : jsval) (o : SignOptions)
  : outcome string :=
  if jsval_eqb (payload_username p) (JStr "alice")
     && (payload_id p =? "id1") && (expiresIn o =? "1h")
  then Returned alice_token
  else Raised (type_error "unknown payload").

Definition table_decode (token : string)
  : option (SignPayload * SignOptions) :=
  if token =? alice_token then Some (alice_payload, mkOptions "1h")
  else None.

Definition table_env : Env :=
  {| bcrypt_genSalt := fun _ => Returned "s4lt";
     bcrypt_hash := demo_hash;
     bcrypt_compare := demo_compare;
     jwt_sign := table_sign;
     JWTKEY := JStr "secret";
     findOne_fault := None;
     save_fault := None;
     new_id := "id1" |}.

Definition demo_api : Client.Api :=
  Client.mkApi
    (fun form =>
       if jsval_eqb (get_prop "password" form) (JStr "pw123")
       then Returned (Client.mkHttpResponse (JStr "payload"))
       else Raised (mkError "Request failed with status code 400"
                            (JStr "Incorrect password")))
    (fun form =>
       if truthy (get_prop "username" form)
       then Returned (Client.mkHttpResponse (JStr "payload"))
       else Raised (mkError "Network Error" JUndefined)).

End Demo.

(** ** Classifying calls *)

(** The error a call raised, if it raised. *)
Definition call_error (c : Call) : option Error :=
  match c with
  | CGenSalt _ (Raised e) | CHash _ _ (Raised e) | CFindOne _ (Raised e)
  | CSave _ (Raised e) | CCompare _ _ (Raised e) | CSign _ _ _ (Raised e) =>
      Some e
  | _ => None
  end.

(** The error of the first call of a log that raised. *)
Definition first_error (calls : list Call) : option Error :=
  match find call_raised calls with
  | Some c => call_error c
  | None => None
  end.

Definition is_findOne (c : Call) : bool :=
  match c with CFindOne _ _ => true | _ => false end.

Definition is_compare (c : Call) : bool :=
  match c with CCompare _ _ _ => true | _ => false end.

Definition is_sign (c : Call) : bool :=
  match c with CSign _ _ _ _ => true | _ => false end.

Definition is_console_error (c : Call) : bool :=
  match c with CConsoleError _ _ => true | _ => false end.

(** The calls a login has no use for: salting, hashing, saving. *)
Definition hashes_or_saves (c : Call) : bool :=
  match c with
  | CGenSalt _ _ | CHash _ _ _ | CSave _ _ => true
  | _ => false
  end.

(** The usernames of the collection, in order. *)
Definition usernames (db : Collection) : list jsval := map doc_username db.

(** A [navigate] that raises [e] when it is called. *)
Definition raising_navigate (e : Error) (to : string)
    (opts : Client.NavigateOptions) : Client.T unit :=
  await (Raised e) (Client.Navigate to opts).

Module Faults.

(** bcrypt returns a salt and then fails to hash. *)
Definition hash_down : Env :=
  {| bcrypt_genSalt := fun _ => Returned "s4lt";
     bcrypt_hash := fun _ _ => Raised (Demo.type_error "hash failed");
     bcrypt_compare := Demo.demo_compare;
     jwt_sign := Demo.demo_sign;
     JWTKEY := JStr "secret";
     findOne_fault := None;
     save_fault := None;
     new_id := "id2" |}.

Definition bob : Request :=
  mkRequest [("username", JStr "bob"); ("password", JStr "hunter2");
             ("firstname", JStr "B"); ("lastname", JStr "O")].

Definition router_down : Error := mkError "navigation failed" JUndefined.

End Faults.

Module Cases.


Definition bob_doc : UserDoc :=
  mkUser "id2" (JStr "bob") (JStr "s4lthunter2") (JStr "B") (JStr "O").



Definition numeric_login : Request :=
  mkRequest [("username", JStr "alice"); ("password", JNum 12345)].


End Cases.

(** * Properties *)

(** ** Values and objects *)

Lemma jsval_eqb_refl : forall v : jsval, jsval_eqb v v = true.
Proof.
  fix IH 1.
  intros [ | | b | n | s | items | props]; simpl; try reflexivity.
  - destruct b; reflexivity.
  - apply Z.eqb_refl.
  - apply String.eqb_refl.
  - induction items as [|x xs IHxs]; [reflexivity|].
    rewrite (IH x). exact IHxs.
  - induction props as [|[k x] ps IHps]; [reflexivity|].
    rewrite String.eqb_refl, (IH x). exact IHps.
Qed.

Lemma get_del_same (k : string) (o : jsobj) :
  get_prop k (del_prop k o) = JUndefined.
Proof.
  induction o as [|[k' v] o IH]; simpl; [reflexivity|].
  destruct (k' =? k) eqn:Hk; simpl; [exact IH|].
  rewrite Hk. exact IH.
Qed.

Lemma get_del_other (k k' : string) (o : jsobj) :
  (k' =? k) = false -> get_prop k (del_prop k' o) = get_prop k o.
Proof.
  intros Hne.
  induction o as [|[k0 v] o IH]; simpl; [reflexivity|].
  destruct (k0 =? k') eqn:H0; simpl.
  - apply String.eqb_eq in H0. subst k0. rewrite Hne. exact IH.
  - destruct (k0 =? k); [reflexivity | exact IH].
Qed.

Lemma get_set_same (k : string) (v : jsval) (o : jsobj) :
  get_prop k (set_prop k v o) = v.
Proof. unfold set_prop. simpl. rewrite String.eqb_refl. reflexivity. Qed.

Lemma get_set_other (k k' : string) (v : jsval) (o : jsobj) :
  (k' =? k) = false -> get_prop k (set_prop k' v o) = get_prop k o.
Proof.
  intros Hne. unfold set_prop. simpl. rewrite Hne.
  apply get_del_other. exact Hne.
Qed.

(** ** The collection *)

Lemma find_user_app_new (q : jsval) (db : Collection) (d : UserDoc) :
  find_user q db = None ->
  doc_username d = q ->
  find_user q (db ++ [d]) = Some d.
Proof.
  unfold find_user. intros Hnone Hq.
  induction db as [|u db IH]; simpl in *.
  - rewrite Hq, jsval_eqb_refl. reflexivity.
  - destruct (jsval_eqb (doc_username u) q); [discriminate | auto].
Qed.

Lemma find_user_In (q : jsval) (db : Collection) (u : UserDoc) :
  find_user q db = Some u -> In u db.
Proof.
  unfold find_user. intros H. apply find_some in H. tauto.
Qed.

(** ** The guards *)

Lemma register_guard (req : Request) :
  negb (truthy (get_prop "username" (body req)))
  || negb (truthy (get_prop "password" (body req)))
  || negb (truthy (get_prop "firstname" (body req)))
  || negb (truthy (get_prop "lastname" (body req)))
  = negb (register_fields_provided req).
Proof.
  unfold register_fields_provided.
  rewrite !negb_andb. reflexivity.
Qed.

Lemma login_guard (req : Request) :
  negb (truthy (get_prop "username" (body req)))
  || negb (truthy (get_prop "password" (body req)))
  = negb (login_fields_provided req).
Proof.
  unfold login_fields_provided.
  rewrite negb_andb. reflexivity.
Qed.

Lemma registerUser_rejects (E : Env) (req : Request) (db : Collection) :
  register_fields_provided req = false ->
  registerUser E req db
  = (Returned (mkResponse 400 (BMessage "All fields are required.")), db, []).
Proof.
  intros H. unfold registerUser.
  rewrite register_guard, H. reflexivity.
Qed.

Lemma loginUser_rejects (E : Env) (req : Request) (db : Collection) :
  login_fields_provided req = false ->
  loginUser E req db
  = (Returned (mkResponse 400
       (BMessage "Username and password are required.")), db, []).
Proof.
  intros H. unfold loginUser.
  rewrite login_guard, H. reflexivity.
Qed.

(** Past the guard, [registerUser] is its [try] block. *)
Lemma registerUser_accepts (E : Env) (req : Request) :
  register_fields_provided req = true ->
  registerUser E req
  = try_catch
      (salt <- genSalt E 10 ;;
       hashedPass <- hash E (get_prop "password" (body req)) salt ;;
       oldUser <- findOne E (get_prop "username" (body req)) ;;
       match oldUser with
       | Some _ => ret (mkResponse 400 (BMessage "User already exists"))
       | None =>
           user <- save E (UserModel E (set_prop "password" (JStr hashedPass)
                                                 (body req))) ;;
           token <- sign E (mkPayload (doc_username user) (doc_id user))
                         (JWTKEY E) (mkOptions "1h") ;;
           ret (mkResponse 200 (BUserToken user token))
       end)
      (fun error =>
         console_error "Error during registration:" (message error) ;;;
         ret (mkResponse 500 (BMessage "Server Error during registration"))).
Proof.
  intros H. unfold registerUser.
  rewrite register_guard, H. reflexivity.
Qed.

Lemma loginUser_accepts (E : Env) (req : Request) :
  login_fields_provided req = true ->
  loginUser E req
  = try_catch
      (user <- findOne E (get_prop "username" (body req)) ;;
       match user with
       | None => ret (mkResponse 404 (BString "User not found"))
       | Some user =>
           validity <- compare E (get_prop "password" (body req))
                               (doc_password user) ;;
           if negb validity
           then ret (mkResponse 400 (BString "Incorrect password"))
           else
             token <- sign E (mkPayload (doc_username user) (doc_id user))
                           (JWTKEY E) (mkOptions "1h") ;;
             ret (mkResponse 200 (BUserToken user token))
       end)
      (fun err =>
         console_error "Error during login:" (message err) ;;;
         ret (mkResponse 500 (BMessage "Server Error during login"))).
Proof.
  intros H. unfold loginUser.
  rewrite login_guard, H. reflexivity.
Qed.

(** Unfolds the monad and the awaited calls. *)
Ltac unfold_run :=
  unfold try_catch, bind, ret, genSalt, hash, compare, sign, findOne, save,
    console_error, await, response_of, store_of, calls_of in *.

(** The document built from the body has the body's username: setting the
    password does not touch it. *)
Lemma UserModel_username (E : Env) (b : jsobj) (h : jsval) :
  doc_username (UserModel E (set_prop "password" h b)) = get_prop "username" b.
Proof. unfold UserModel. simpl. apply get_del_other. reflexivity. Qed.

(** ** Registration *)








(** ** Login *)

(** C2. (amended) A login with username and password provided answers by
    what its calls give.  No stored user: 404.  A stored user and [compare]
    returning [true] for the candidate against the stored password: 200
    with that user and the token the signer returned.  A stored user and
    [compare] returning [false]: 400.  And 500 whenever a call raises: the
    lookup, [compare] (as it does for a password that is present but not a
    string) or the signer. *)
Theorem loginUser_responses (E : Env) (req : Request) (db : Collection) :
  login_fields_provided req = true ->
  (forall user,
      findOne_fault E = None ->
      find_user (get_prop "username" (body req)) db = Some user ->
      (forall token,
          bcrypt_compare E (get_prop "password" (body req))
                         (doc_password user) = Returned true ->
          jwt_sign E (mkPayload (doc_username user) (doc_id user)) (JWTKEY E)
                   (mkOptions "1h") = Returned token ->
          response_of (loginUser E req db)
          = Returned (mkResponse 200 (BUserToken user token)))
      /\ (bcrypt_compare E (get_prop "password" (body req))
                         (doc_password user) = Returned false ->
          response_of (loginUser E req db)
          = Returned (mkResponse 400 (BString "Incorrect password")))
      /\ (forall e,
          bcrypt_compare E (get_prop "password" (body req))
                         (doc_password user) = Raised e ->
          response_of (loginUser E req db)
          = Returned (mkResponse 500 (BMessage "Server Error during login")))
      /\ (forall e,
          bcrypt_compare E (get_prop "password" (body req))
                         (doc_password user) = Returned true ->
          jwt_sign E (mkPayload (doc_username user) (doc_id user)) (JWTKEY E)
                   (mkOptions "1h") = Raised e ->
          response_of (loginUser E req db)
          = Returned (mkResponse 500
                        (BMessage "Server Error during login"))))
  /\ (findOne_fault E = None ->
      find_user (get_prop "username" (body req)) db = None ->
      response_of (loginUser E req db)
      = Returned (mkResponse 404 (BString "User not found")))
  /\ (forall e,
      findOne_fault E = Some e ->
      response_of (loginUser E req db)
      = Returned (mkResponse 500 (BMessage "Server Error during login"))).
Proof.
  intros Hprov.
  rewrite loginUser_accepts by exact Hprov.
  unfold_run.
  split; [|split].
  - intros user Hfind Huser. rewrite Hfind, Huser.
    split; [|split; [|split]].
    + intros token Hcmp Htok. rewrite Hcmp. cbn. rewrite Htok. reflexivity.
    + intros Hcmp. rewrite Hcmp. reflexivity.
    + intros e Hcmp. rewrite Hcmp. reflexivity.
    + intros e Hcmp Htok. rewrite Hcmp. cbn. rewrite Htok. reflexivity.
  - intros Hfind Hnone. rewrite Hfind, Hnone. reflexivity.
  - intros e Hfind. rewrite Hfind. reflexivity.
Qed.

Lemma loginUser_responses_witness :
  response_of (loginUser Demo.demo_env
                 (mkRequest (Demo.credentials "alice" "pw123"))
                 [Cases.bob_doc; Demo.alice_doc])
  = Returned (mkResponse 200 (BUserToken Demo.alice_doc Demo.alice_token))
  /\ response_of (loginUser Demo.demo_env
                    (mkRequest (Demo.credentials "alice" "wrong"))
                    [Cases.bob_doc; Demo.alice_doc])
     = Returned (mkResponse 400 (BString "Incorrect password"))
  /\ response_of (loginUser Demo.demo_env Cases.numeric_login
                            [Cases.bob_doc; Demo.alice_doc])
     = Returned (mkResponse 500 (BMessage "Server Error during login"))
  /\ response_of (loginUser Demo.no_key
                    (mkRequest (Demo.credentials "alice" "pw123"))
                    [Cases.bob_doc; Demo.alice_doc])
     = Returned (mkResponse 500 (BMessage "Server Error during login"))
  /\ response_of (loginUser Demo.demo_env
                    (mkRequest (Demo.credentials "carol" "pw123"))
                    [Cases.bob_doc; Demo.alice_doc])
     = Returned (mkResponse 404 (BString "User not found"))
  /\ response_of (loginUser Demo.db_down
                    (mkRequest (Demo.credentials "alice" "pw123"))
                    [Cases.bob_doc; Demo.alice_doc])
     = Returned (mkResponse 500 (BMessage "Server Error during login")).
Proof.
  split; [|split; [|split; [|split; [|split]]]].
  - apply (proj1 (loginUser_responses Demo.demo_env
                    (mkRequest (Demo.credentials "alice" "pw123"))
                    [Cases.bob_doc; Demo.alice_doc] eq_refl)
                 Demo.alice_doc eq_refl eq_refl); reflexivity.
  - apply (proj1 (loginUser_responses Demo.demo_env
                    (mkRequest (Demo.credentials "alice" "wrong"))
                    [Cases.bob_doc; Demo.alice_doc] eq_refl)
                 Demo.alice_doc eq_refl eq_refl); reflexivity.
  - apply (proj1 (proj2 (proj2 (proj1 (loginUser_responses Demo.demo_env
                    Cases.numeric_login
                    [Cases.bob_doc; Demo.alice_doc] eq_refl)
                 Demo.alice_doc eq_refl eq_refl)))
             (Demo.type_error "data and hash must be strings")).
    reflexivity.
  - apply (proj2 (proj2 (proj2 (proj1 (loginUser_responses Demo.no_key
                    (mkRequest (Demo.credentials "alice" "pw123"))
                    [Cases.bob_doc; Demo.alice_doc] eq_refl)
                 Demo.alice_doc eq_refl eq_refl)))
             (Demo.type_error "secretOrPrivateKey must have a value"));
      reflexivity.
  - apply (proj1 (proj2 (loginUser_responses Demo.demo_env
                           (mkRequest (Demo.credentials "carol" "pw123"))
                           [Cases.bob_doc; Demo.alice_doc] eq_refl)));
      reflexivity.
  - apply (proj2 (proj2 (loginUser_responses Demo.db_down
                           (mkRequest (Demo.credentials "alice" "pw123"))
                           [Cases.bob_doc; Demo.alice_doc] eq_refl))
                 (Demo.type_error "connection refused")).
    reflexivity.
Defined.

(** C2, as it is worded, fails.  With alice stored, the login
    [{ username: "alice", password: 12345 }] has both fields present and a
    password that does not verify; [compare] refuses a candidate that is
    not a string, and the [catch] answers 500, not 400. *)
Lemma loginUser_responses_counterexample :
  login_fields_provided Cases.numeric_login = true
  /\ find_user (get_prop "username" (body Cases.numeric_login))
               [Demo.alice_doc] = Some Demo.alice_doc
  /\ bcrypt_compare Demo.demo_env
       (get_prop "password" (body Cases.numeric_login))
       (doc_password Demo.alice_doc) <> Returned true
  /\ loginUser Demo.demo_env Cases.numeric_login [Demo.alice_doc]
     = (Returned (mkResponse 500 (BMessage "Server Error during login")),
        [Demo.alice_doc],
        [CFindOne (JStr "alice") (Returned (Some Demo.alice_doc));
         CCompare (JNum 12345) (JStr "s4ltpw123")
                  (Raised (Demo.type_error "data and hash must be strings"));
         CConsoleError "Error during login:"
                       "data and hash must be strings"])
  /\ status (mkResponse 500 (BMessage "Server Error during login"))
     <> 400%Z.
Proof.
  split; [reflexivity|]. split; [reflexivity|].
  split; [discriminate|]. split; [reflexivity | discriminate].
Qed.

(** ** What a 200 answer tells *)

(** A registration answers 200 only along the whole path: salt, hash, no
    stored user, save, token. *)
Lemma registerUser_200 (E : Env) (req : Request) (db : Collection)
    (resp : Response) :
  response_of (registerUser E req db) = Returned resp ->
  status resp = 200%Z ->
  exists salt h token,
    let user := UserModel E (set_prop "password" (JStr h) (body req)) in
    register_fields_provided req = true
    /\ bcrypt_genSalt E 10 = Returned salt
    /\ bcrypt_hash E (get_prop "password" (body req)) salt = Returned h
    /\ find_user (get_prop "username" (body req)) db = None
    /\ jwt_sign E (mkPayload (doc_username user) (doc_id user)) (JWTKEY E)
                (mkOptions "1h") = Returned token
    /\ registerUser E req db
       = (Returned (mkResponse 200 (BUserToken user token)), db ++ [user],
          [CGenSalt 10 (Returned salt);
           CHash (get_prop "password" (body req)) salt (Returned h);
           CFindOne (get_prop "username" (body req)) (Returned None);
           CSave user (Returned user);
           CSign (mkPayload (doc_username user) (doc_id user)) (JWTKEY E)
                 (mkOptions "1h") (Returned token)]).
Proof.
  intros Hresp H200.
  destruct (register_fields_provided req) eqn:Hprov.
  - rewrite registerUser_accepts in * by exact Hprov.
    unfold_run.
    destruct (bcrypt_genSalt E 10) as [salt|e] eqn:Hsalt; cbn in *;
      [|injection Hresp as <-; discriminate].
    destruct (bcrypt_hash E _ salt) as [h|e] eqn:Hhash; cbn in *;
      [|injection Hresp as <-; discriminate].
    destruct (findOne_fault E); cbn in *;
      [injection Hresp as <-; discriminate|].
    destruct (find_user _ db) eqn:Hold; cbn in *;
      [injection Hresp as <-; discriminate|].
    destruct (save_fault E); cbn in *;
      [injection Hresp as <-; discriminate|].
    destruct (jwt_sign E _ _ _) as [token|e] eqn:Htok; cbn in *;
      [|injection Hresp as <-; discriminate].
    exists salt, h, token. cbn zeta.
    repeat split; try assumption; reflexivity.
  - rewrite registerUser_rejects in Hresp by exact Hprov.
    injection Hresp as <-. discriminate.
Qed.

(** A login answers 200 only when the user was found, the comparison
    returned [true] and the signer returned the token. *)
Lemma loginUser_200 (E : Env) (req : Request) (db : Collection)
    (resp : Response) :
  response_of (loginUser E req db) = Returned resp ->
  status resp = 200%Z ->
  exists user token,
    login_fields_provided req = true
    /\ find_user (get_prop "username" (body req)) db = Some user
    /\ bcrypt_compare E (get_prop "password" (body req)) (doc_password user)
       = Returned true
    /\ jwt_sign E (mkPayload (doc_username user) (doc_id user)) (JWTKEY E)
                (mkOptions "1h") = Returned token
    /\ loginUser E req db
       = (Returned (mkResponse 200 (BUserToken user token)), db,
          [CFindOne (get_prop "username" (body req)) (Returned (Some user));
           CCompare (get_prop "password" (body req)) (doc_password user)
                    (Returned true);
           CSign (mkPayload (doc_username user) (doc_id user)) (JWTKEY E)
                 (mkOptions "1h") (Returned token)]).
Proof.
  intros Hresp H200.
  destruct (login_fields_provided req) eqn:Hprov.
  - rewrite loginUser_accepts in * by exact Hprov.
    unfold_run.
    destruct (findOne_fault E); cbn in *;
      [injection Hresp as <-; discriminate|].
    destruct (find_user _ db) as [user|] eqn:Huser; cbn in *;
      [|injection Hresp as <-; discriminate].
    destruct (bcrypt_compare E _ _) as [[|]|e] eqn:Hcmp; cbn in *;
      try (injection Hresp as <-; discriminate).
    destruct (jwt_sign E _ _ _) as [token|e] eqn:Htok; cbn in *;
      [|injection Hresp as <-; discriminate].
    exists user, token.
    repeat split; try assumption; reflexivity.
  - rewrite loginUser_rejects in Hresp by exact Hprov.
    injection Hresp as <-. discriminate.
Qed.

(** ** The token *)

(** C4. When a login or a registration answers 200, its body is the user,
    a record of the collection, with the token the signer returned for the
    payload [{ username: user.username, id: user._id }] and the options
    [{ expiresIn: "1h" }]; a decoder that reads back what the signer was
    given reads exactly that username, that identifier and the one-hour
    expiry from the token. *)
Theorem token_carries_user_identity
    (E : Env) (req : Request) (db : Collection) (resp : Response)
    (decode : string -> option (SignPayload * SignOptions)) :
  (forall p k o t, jwt_sign E p k o = Returned t -> decode t = Some (p, o)) ->
  status resp = 200%Z ->
  (response_of (loginUser E req db) = Returned resp ->
   exists user token,
     json resp = BUserToken user token
     /\ find_user (get_prop "username" (body req)) db = Some user
     /\ In user (store_of (loginUser E req db))
     /\ decode token
        = Some (mkPayload (doc_username user) (doc_id user), mkOptions "1h"))
  /\ (response_of (registerUser E req db) = Returned resp ->
      exists user token,
        json resp = BUserToken user token
        /\ In user (store_of (registerUser E req db))
        /\ decode token
           = Some (mkPayload (doc_username user) (doc_id user),
                   mkOptions "1h")).
Proof.
  intros Hdec H200. split; intros Hresp.
  - destruct (loginUser_200 E req db resp Hresp H200)
      as (user & token & _ & Huser & _ & Htok & Hrun).
    exists user, token.
    rewrite Hrun in *. cbn in Hresp. injection Hresp as <-.
    split; [reflexivity|]. split; [exact Huser|].
    split; [exact (find_user_In _ _ _ Huser) | exact (Hdec _ _ _ _ Htok)].
  - destruct (registerUser_200 E req db resp Hresp H200)
      as (salt & h & token & _ & _ & _ & _ & Htok & Hrun).
    cbn zeta in Htok, Hrun.
    eexists. exists token.
    rewrite Hrun in *. cbn in Hresp. injection Hresp as <-.
    split; [reflexivity|].
    split; [apply in_or_app; right; left; reflexivity|].
    exact (Hdec _ _ _ _ Htok).
Qed.

Lemma table_decode_reads_back (p : SignPayload) (k : jsval) (o : SignOptions)
    (t : string) :
  Demo.table_sign p k o = Returned t -> Demo.table_decode t = Some (p, o).
Proof.
  unfold Demo.table_sign. destruct p as [u i], o as [x]. cbn.
  destruct u; cbn; try discriminate.
  destruct (s =? "alice") eqn:Hs; cbn; [|discriminate].
  destruct (i =? "id1") eqn:Hi; cbn; [|discriminate].
  destruct (x =? "1h") eqn:Hx; cbn; [|discriminate].
  apply String.eqb_eq in Hs, Hi, Hx. subst.
  intros [= <-]. reflexivity.
Defined.

Lemma token_carries_user_identity_witness :
  (exists user token,
      BUserToken Demo.alice_doc Demo.alice_token = BUserToken user token
      /\ find_user (JStr "alice") [Demo.alice_doc] = Some user
      /\ In user [Demo.alice_doc]
      /\ Demo.table_decode token
         = Some (mkPayload (doc_username user) (doc_id user), mkOptions "1h"))
  /\ (exists user token,
      BUserToken Demo.alice_doc Demo.alice_token = BUserToken user token
      /\ In user [Demo.alice_doc]
      /\ Demo.table_decode token
         = Some (mkPayload (doc_username user) (doc_id user),
                 mkOptions "1h")).
Proof.
  split.
  - apply (proj1 (token_carries_user_identity Demo.table_env
                    (mkRequest (Demo.credentials "alice" "pw123"))
                    [Demo.alice_doc]
                    (mkResponse 200
                       (BUserToken Demo.alice_doc Demo.alice_token))
                    Demo.table_decode table_decode_reads_back eq_refl)).
    reflexivity.
  - apply (proj2 (token_carries_user_identity Demo.table_env Demo.alice []
                    (mkResponse 200
                       (BUserToken Demo.alice_doc Demo.alice_token))
                    Demo.table_decode table_decode_reads_back eq_refl)).
    reflexivity.
Defined.

(** ** The stored password *)

(** C5. After a registration answered 200 the record added to the
    collection holds, as its password, the string bcrypt's [hash] returned
    for the supplied password and the generated salt; it differs from the
    supplied password whenever [hash] never returns its own input.  A login
    depends on the candidate password only through [compare] against the
    stored password: two candidates with the same verdict get the same
    answer, and a 200 needs the verdict [true]. *)
Theorem stored_password_is_hash (E : Env) (req : Request) (db : Collection) :
  (forall resp,
      response_of (registerUser E req db) = Returned resp ->
      status resp = 200%Z ->
      exists salt h user,
        bcrypt_genSalt E 10 = Returned salt
        /\ bcrypt_hash E (get_prop "password" (body req)) salt = Returned h
        /\ store_of (registerUser E req db) = db ++ [user]
        /\ doc_password user = JStr h
        /\ ((forall d h', bcrypt_hash E d salt = Returned h' -> JStr h' <> d) ->
            doc_password user <> get_prop "password" (body req)))
  /\ (forall req' user,
      get_prop "username" (body req') = get_prop "username" (body req) ->
      login_fields_provided req = true ->
      login_fields_provided req' = true ->
      find_user (get_prop "username" (body req)) db = Some user ->
      bcrypt_compare E (get_prop "password" (body req')) (doc_password user)
      = bcrypt_compare E (get_prop "password" (body req)) (doc_password user) ->
      response_of (loginUser E req' db) = response_of (loginUser E req db))
  /\ (forall resp,
      response_of (loginUser E req db) = Returned resp ->
      status resp = 200%Z ->
      exists user,
        find_user (get_prop "username" (body req)) db = Some user
        /\ bcrypt_compare E (get_prop "password" (body req))
                          (doc_password user) = Returned true).
Proof.
  split; [|split].
  - intros resp Hresp H200.
    destruct (registerUser_200 E req db resp Hresp H200)
      as (salt & h & token & _ & Hsalt & Hhash & _ & _ & Hrun).
    cbn zeta in Hrun.
    exists salt, h, (UserModel E (set_prop "password" (JStr h) (body req))).
    rewrite Hrun. cbn.
    split; [exact Hsalt|]. split; [exact Hhash|].
    split; [reflexivity|]. split; [reflexivity|].
    intros Hone. exact (Hone _ _ Hhash).
  - intros req' user Hsame Hprov Hprov' Huser Hcmp.
    rewrite !loginUser_accepts by assumption.
    unfold_run. rewrite Hsame.
    destruct (findOne_fault E); [reflexivity|].
    rewrite Huser. cbn. rewrite Hcmp. clear Hcmp.
    destruct (bcrypt_compare E (get_prop "password" (body req))
                             (doc_password user)) as [[|]|e];
      cbn; try reflexivity.
    destruct (jwt_sign E _ _ _); reflexivity.
  - intros resp Hresp H200.
    destruct (loginUser_200 E req db resp Hresp H200)
      as (user & token & _ & Huser & Hcmp & _).
    exists user. split; assumption.
Qed.

Lemma demo_hash_not_identity (d : jsval) (h : string) :
  bcrypt_hash Demo.demo_env d "s4lt" = Returned h -> JStr h <> d.
Proof.
  cbn. destruct d; cbn; try discriminate.
  intros [= <-] [= H].
  apply (f_equal String.length) in H. cbn in H. lia.
Defined.

Lemma stored_password_is_hash_witness :
  (exists user,
      store_of (registerUser Demo.demo_env Demo.alice []) = [] ++ [user]
      /\ doc_password user <> JStr "pw123")
  /\ response_of (loginUser Demo.demo_env
                    (mkRequest (Demo.credentials "alice" "pw12"))
                    [Demo.alice_doc])
     = response_of (loginUser Demo.demo_env
                      (mkRequest (Demo.credentials "alice" "wrong"))
                      [Demo.alice_doc])
  /\ (exists user,
      find_user (JStr "alice") [Demo.alice_doc] = Some user
      /\ bcrypt_compare Demo.demo_env (JStr "pw123") (doc_password user)
         = Returned true).
Proof.
  split; [|split].
  - destruct (proj1 (stored_password_is_hash Demo.demo_env Demo.alice [])
                    (mkResponse 200
                       (BUserToken Demo.alice_doc Demo.alice_token))
                    eq_refl eq_refl)
      as (salt & h & user & Hsalt & _ & Hstore & _ & Hne).
    exists user. split; [exact Hstore|].
    apply Hne. injection Hsalt as <-. exact demo_hash_not_identity.
  - apply (proj1 (proj2 (stored_password_is_hash Demo.demo_env
                           (mkRequest (Demo.credentials "alice" "wrong"))
                           [Demo.alice_doc]))
                 (mkRequest (Demo.credentials "alice" "pw12"))
                 Demo.alice_doc); reflexivity.
  - apply (proj2 (proj2 (stored_password_is_hash Demo.demo_env
                           (mkRequest (Demo.credentials "alice" "pw123"))
                           [Demo.alice_doc]))
                 (mkResponse 200
                    (BUserToken Demo.alice_doc Demo.alice_token)));
      reflexivity.
Defined.

(** ** Missing fields *)

Lemma register_missing_field (req : Request) :
  truthy (get_prop "username" (body req)) = false
  \/ truthy (get_prop "password" (body req)) = false
  \/ truthy (get_prop "firstname" (body req)) = false
  \/ truthy (get_prop "lastname" (body req)) = false ->
  register_fields_provided req = false.
Proof.
  unfold register_fields_provided.
  intros [H | [H | [H | H]]]; rewrite H;
    rewrite ?andb_false_r; reflexivity.
Qed.

Lemma login_missing_field (req : Request) :
  truthy (get_prop "username" (body req)) = false
  \/ truthy (get_prop "password" (body req)) = false ->
  login_fields_provided req = false.
Proof.
  unfold login_fields_provided.
  intros [H | H]; rewrite H; rewrite ?andb_false_r; reflexivity.
Qed.

(** C6. A registration with one of its four fields missing, and a login
    with its username or password missing, answer 400 with the collection
    untouched and without a single call to bcrypt, the store or the signer,
    whatever the environment. *)
Theorem missing_field_rejected_before_any_call
    (E : Env) (req : Request) (db : Collection) :
  (truthy (get_prop "username" (body req)) = false
   \/ truthy (get_prop "password" (body req)) = false
   \/ truthy (get_prop "firstname" (body req)) = false
   \/ truthy (get_prop "lastname" (body req)) = false ->
   registerUser E req db
   = (Returned (mkResponse 400 (BMessage "All fields are required.")),
      db, []))
  /\ (truthy (get_prop "username" (body req)) = false
      \/ truthy (get_prop "password" (body req)) = false ->
      loginUser E req db
      = (Returned (mkResponse 400
           (BMessage "Username and password are required.")), db, [])).
Proof.
  split; intros H.
  - apply registerUser_rejects, register_missing_field, H.
  - apply loginUser_rejects, login_missing_field, H.
Qed.

Lemma missing_field_rejected_before_any_call_witness :
  registerUser Demo.db_down
    (mkRequest (Demo.credentials "alice" "pw123")) [Demo.alice_doc]
  = (Returned (mkResponse 400 (BMessage "All fields are required.")),
     [Demo.alice_doc], [])
  /\ loginUser Demo.db_down
       (mkRequest [("username", JStr "alice")]) [Demo.alice_doc]
     = (Returned (mkResponse 400
          (BMessage "Username and password are required.")),
        [Demo.alice_doc], []).
Proof.
  split.
  - apply (proj1 (missing_field_rejected_before_any_call Demo.db_down
                    (mkRequest (Demo.credentials "alice" "pw123"))
                    [Demo.alice_doc])).
    right. right. left. reflexivity.
  - apply (proj2 (missing_field_rejected_before_any_call Demo.db_down
                    (mkRequest [("username", JStr "alice")])
                    [Demo.alice_doc])).
    right. reflexivity.
Defined.

(** C10. A username or password given as the empty string, as [0] or as
    [null] is a missing one: the registration and the login answer exactly
    what they answer when the property is absent from the body, which is
    the 400 of the guard. *)
Theorem falsy_field_is_missing
    (E : Env) (b : jsobj) (db : Collection) (k : string) (v : jsval) :
  k = "username" \/ k = "password" ->
  v = JStr "" \/ v = JNum 0 \/ v = JNull ->
  (registerUser E (mkRequest (set_prop k v b)) db
   = registerUser E (mkRequest (del_prop k b)) db
   /\ response_of (registerUser E (mkRequest (set_prop k v b)) db)
      = Returned (mkResponse 400 (BMessage "All fields are required.")))
  /\ (loginUser E (mkRequest (set_prop k v b)) db
      = loginUser E (mkRequest (del_prop k b)) db
      /\ response_of (loginUser E (mkRequest (set_prop k v b)) db)
         = Returned (mkResponse 400
             (BMessage "Username and password are required."))).
Proof.
  intros Hk Hv.
  assert (Hfalsy : truthy v = false)
    by (destruct Hv as [-> | [-> | ->]]; reflexivity).
  assert (Hset : truthy (get_prop k (set_prop k v b)) = false)
    by (rewrite get_set_same; exact Hfalsy).
  assert (Hdel : truthy (get_prop k (del_prop k b)) = false)
    by (rewrite get_del_same; reflexivity).
  assert (Hreg : forall o, truthy (get_prop k o) = false ->
                           register_fields_provided (mkRequest o) = false).
  { intros o Ho. apply register_missing_field. cbn.
    destruct Hk as [-> | ->]; auto. }
  assert (Hlog : forall o, truthy (get_prop k o) = false ->
                           login_fields_provided (mkRequest o) = false).
  { intros o Ho. apply login_missing_field. cbn.
    destruct Hk as [-> | ->]; auto. }
  split.
  - rewrite !registerUser_rejects by (apply Hreg; assumption).
    split; reflexivity.
  - rewrite !loginUser_rejects by (apply Hlog; assumption).
    split; reflexivity.
Qed.

Lemma falsy_field_is_missing_witness :
  (registerUser Demo.demo_env
     (mkRequest (set_prop "password" (JStr "") (body Demo.alice))) []
   = registerUser Demo.demo_env
       (mkRequest (del_prop "password" (body Demo.alice))) []
   /\ response_of (registerUser Demo.demo_env
         (mkRequest (set_prop "password" (JStr "") (body Demo.alice))) [])
      = Returned (mkResponse 400 (BMessage "All fields are required.")))
  /\ (loginUser Demo.demo_env
        (mkRequest (set_prop "password" (JStr "") (body Demo.alice))) []
      = loginUser Demo.demo_env
          (mkRequest (del_prop "password" (body Demo.alice))) []
      /\ response_of (loginUser Demo.demo_env
            (mkRequest (set_prop "password" (JStr "") (body Demo.alice))) [])
         = Returned (mkResponse 400
             (BMessage "Username and password are required."))).
Proof.
  apply (falsy_field_is_missing Demo.demo_env (body Demo.alice) []
           "password" (JStr "")).
  - right. reflexivity.
  - left. reflexivity.
Defined.

(** ** Exceptions *)



(** C9. When a registration does not answer 200 and its [save] did not
    complete, the collection is what it was; the only non-200 answer that
    leaves a new record behind is the 500 of a signer that raised after the
    [save] had completed. *)
Theorem failed_registration_keeps_collection
    (E : Env) (req : Request) (db : Collection) (resp : Response) :
  response_of (registerUser E req db) = Returned resp ->
  status resp <> 200%Z ->
  (existsb save_completed (calls_of (registerUser E req db)) = false ->
   store_of (registerUser E req db) = db)
  /\ (store_of (registerUser E req db) = db
      \/ exists user p e,
           store_of (registerUser E req db) = db ++ [user]
           /\ In (CSave user (Returned user))
                 (calls_of (registerUser E req db))
           /\ In (CSign p (JWTKEY E) (mkOptions "1h") (Raised e))
                 (calls_of (registerUser E req db))
           /\ status resp = 500%Z).
Proof.
  intros Hresp Hnot.
  destruct (register_fields_provided req) eqn:Hprov.
  - rewrite registerUser_accepts in * by exact Hprov. unfold_run.
    destruct (bcrypt_genSalt E 10) as [salt|e]; cbn in *; [|auto].
    destruct (bcrypt_hash E _ salt) as [h|e]; cbn in *; [|auto].
    destruct (findOne_fault E); cbn in *; [auto|].
    destruct (find_user _ db); cbn in *; [auto|].
    destruct (save_fault E); cbn in *; [auto|].
    destruct (jwt_sign E _ _ _) as [token|e]; cbn in *.
    + injection Hresp as <-. contradiction Hnot. reflexivity.
    + injection Hresp as <-. split; [discriminate|].
      right. eexists. eexists. exists e.
      split; [reflexivity|].
      split; [do 3 right; left; reflexivity|].
      split; [do 4 right; left; reflexivity | reflexivity].
  - rewrite registerUser_rejects in * by exact Hprov. cbn. auto.
Qed.

Lemma failed_registration_keeps_collection_witness :
  (existsb save_completed (calls_of (registerUser Demo.db_down Demo.alice []))
   = false ->
   store_of (registerUser Demo.db_down Demo.alice []) = [])
  /\ (store_of (registerUser Demo.no_key Demo.alice []) = []
      \/ exists user p e,
           store_of (registerUser Demo.no_key Demo.alice []) = [] ++ [user]
           /\ In (CSave user (Returned user))
                 (calls_of (registerUser Demo.no_key Demo.alice []))
           /\ In (CSign p (JWTKEY Demo.no_key) (mkOptions "1h") (Raised e))
                 (calls_of (registerUser Demo.no_key Demo.alice []))
           /\ status (mkResponse 500
                        (BMessage "Server Error during registration"))
              = 500%Z).
Proof.
  split.
  - apply (proj1 (failed_registration_keeps_collection Demo.db_down
                    Demo.alice []
                    (mkResponse 500
                       (BMessage "Server Error during registration"))
                    eq_refl ltac:(discriminate))).
  - apply (proj2 (failed_registration_keeps_collection Demo.no_key
                    Demo.alice []
                    (mkResponse 500
                       (BMessage "Server Error during registration"))
                    eq_refl ltac:(discriminate))).
Defined.

(** ** The client actions *)

Ltac unfold_thunk :=
  unfold Client.effects, Client.logIn, Client.signUp, Client.logout,
    Client.api_logIn, Client.api_signUp, Client.store_dispatch,
    Client.router_navigate, Client.console_error,
    try_catch, bind, ret, await.

(** C8. [logIn] and [signUp], run with the store's dispatch and the
    router's navigate, first dispatch AUTH_START and then make their HTTP
    call.  When the call returns they dispatch AUTH_SUCCESS with the
    returned data and then navigate to "/home" with [replace: true], and
    nothing else; when it raises they log the error, dispatch AUTH_FAIL,
    and never navigate. *)
Theorem client_action_transitions (api : Client.Api) (formData : jsobj) :
  let run_logIn :=
    Client.effects (Client.logIn api formData Client.router_navigate
                                 Client.store_dispatch) in
  let run_signUp :=
    Client.effects (Client.signUp api formData Client.router_navigate
                                  Client.store_dispatch) in
  (hd_error run_logIn = Some (Client.Dispatch Client.AUTH_START)
   /\ hd_error run_signUp = Some (Client.Dispatch Client.AUTH_START))
  /\ (forall r, Client.AuthApi_logIn api formData = Returned r ->
      run_logIn
      = [Client.Dispatch Client.AUTH_START;
         Client.Request_logIn formData;
         Client.Dispatch (Client.AUTH_SUCCESS (Client.data r));
         Client.Navigate "/home" (Client.mkNavigateOptions true)])
  /\ (forall e, Client.AuthApi_logIn api formData = Raised e ->
      run_logIn
      = [Client.Dispatch Client.AUTH_START;
         Client.Request_logIn formData;
         Client.ConsoleError "Login Error:" (Client.error_detail e);
         Client.Dispatch Client.AUTH_FAIL]
      /\ existsb Client.is_navigate run_logIn = false)
  /\ (forall r, Client.AuthApi_signUp api formData = Returned r ->
      run_signUp
      = [Client.Dispatch Client.AUTH_START;
         Client.Request_signUp formData;
         Client.Dispatch (Client.AUTH_SUCCESS (Client.data r));
         Client.Navigate "/home" (Client.mkNavigateOptions true)])
  /\ (forall e, Client.AuthApi_signUp api formData = Raised e ->
      run_signUp
      = [Client.Dispatch Client.AUTH_START;
         Client.Request_signUp formData;
         Client.ConsoleError "Signup Error:" (Client.error_detail e);
         Client.Dispatch Client.AUTH_FAIL]
      /\ existsb Client.is_navigate run_signUp = false).
Proof.
  cbn zeta. unfold_thunk.
  split; [split|split; [|split; [|split]]].
  - destruct (Client.AuthApi_logIn api formData); reflexivity.
  - destruct (Client.AuthApi_signUp api formData); reflexivity.
  - intros r ->. reflexivity.
  - intros e ->. split; reflexivity.
  - intros r ->. reflexivity.
  - intros e ->. split; reflexivity.
Qed.

Lemma client_action_transitions_witness :
  Client.effects
    (Client.logIn Demo.demo_api (Demo.credentials "alice" "pw123")
                  Client.router_navigate Client.store_dispatch)
  = [Client.Dispatch Client.AUTH_START;
     Client.Request_logIn (Demo.credentials "alice" "pw123");
     Client.Dispatch (Client.AUTH_SUCCESS (JStr "payload"));
     Client.Navigate "/home" (Client.mkNavigateOptions true)]
  /\ Client.effects
       (Client.signUp Demo.demo_api [] Client.router_navigate
                      Client.store_dispatch)
     = [Client.Dispatch Client.AUTH_START;
        Client.Request_signUp [];
        Client.ConsoleError "Signup Error:" (JStr "Network Error");
        Client.Dispatch Client.AUTH_FAIL].
Proof.
  split.
  - apply (proj1 (proj2 (client_action_transitions Demo.demo_api
                           (Demo.credentials "alice" "pw123")))
                 (Client.mkHttpResponse (JStr "payload"))).
    reflexivity.
  - apply (proj2 (proj2 (proj2 (proj2 (client_action_transitions
                                         Demo.demo_api []))))
                 (mkError "Network Error" JUndefined)).
    reflexivity.
Defined.

(** [logout] dispatches LOG_OUT and does nothing else. *)
Lemma logout_dispatches :
  Client.effects (Client.logout Client.store_dispatch)
  = [Client.Dispatch Client.LOG_OUT].
Proof. reflexivity. Qed.

(** ** The scenario of the specification, run on the model *)

(** Register alice, register her again, log in with a wrong password, log
    in with the right one. *)
Example scenario_alice :
  let run1 := registerUser Demo.demo_env Demo.alice [] in
  let db1 := store_of run1 in
  let run2 := registerUser Demo.demo_env Demo.alice db1 in
  let run3 := loginUser Demo.demo_env
                (mkRequest (Demo.credentials "alice" "wrong"))
                (store_of run2) in
  let run4 := loginUser Demo.demo_env
                (mkRequest (Demo.credentials "alice" "pw123"))
                (store_of run3) in
  response_of run1
  = Returned (mkResponse 200 (BUserToken Demo.alice_doc Demo.alice_token))
  /\ response_of run2
     = Returned (mkResponse 400 (BMessage "User already exists"))
  /\ response_of run3
     = Returned (mkResponse 400 (BString "Incorrect password"))
  /\ response_of run4
     = Returned (mkResponse 200 (BUserToken Demo.alice_doc Demo.alice_token))
  /\ store_of run4 = [Demo.alice_doc].
Proof. cbn zeta. repeat split. Qed.

(** * Further properties of the controller and the thunks *)

(** ** Equality of values *)

Lemma jsval_eqb_eq : forall a b : jsval, jsval_eqb a b = true <-> a = b.
Proof.
  intros a b. split; [|intros <-; apply jsval_eqb_refl].
  revert a b. fix IH 1.
  intros [ | | x | x | x | xs | ps] [ | | y | y | y | ys | qs]; simpl;
    try discriminate; try reflexivity; intros H.
  - apply Bool.eqb_prop in H. congruence.
  - apply Z.eqb_eq in H. congruence.
  - apply String.eqb_eq in H. congruence.
  - f_equal. revert ys H.
    induction xs as [|x xs IHxs]; intros [|y ys] H;
      try discriminate; [reflexivity|].
    apply andb_true_iff in H. destruct H as [Hx Hxs].
    f_equal; [apply IH, Hx | apply IHxs, Hxs].
  - f_equal. revert qs H.
    induction ps as [|[k x] ps IHps]; intros [|[k' y] qs] H;
      try discriminate; [reflexivity|].
    apply andb_true_iff in H. destruct H as [H Hps].
    apply andb_true_iff in H. destruct H as [Hk Hx].
    apply String.eqb_eq in Hk. subst k'.
    f_equal; [f_equal; apply IH, Hx | apply IHps, Hps].
Qed.

Lemma find_user_None_not_In (q : jsval) (db : Collection) :
  find_user q db = None -> ~ In q (usernames db).
Proof.
  unfold find_user, usernames. intros Hnone Hin.
  apply in_map_iff in Hin. destruct Hin as (u & <- & Hu).
  pose proof (find_none _ _ Hnone u Hu) as H. cbn in H.
  rewrite jsval_eqb_refl in H. discriminate.
Qed.

Lemma find_user_app_old (q : jsval) (db : Collection) (u d : UserDoc) :
  find_user q db = Some u -> find_user q (db ++ [d]) = Some u.
Proof.
  unfold find_user. induction db as [|x db IH]; simpl; [discriminate|].
  destruct (jsval_eqb (doc_username x) q); auto.
Qed.

(** What a registration does to the collection, in every case. *)
Lemma registerUser_store (E : Env) (req : Request) (db : Collection) :
  store_of (registerUser E req db) = db
  \/ exists h,
       let user := UserModel E (set_prop "password" (JStr h) (body req)) in
       store_of (registerUser E req db) = db ++ [user]
       /\ find_user (get_prop "username" (body req)) db = None
       /\ In (CSave user (Returned user)) (calls_of (registerUser E req db)).
Proof.
  destruct (register_fields_provided req) eqn:Hprov.
  - rewrite registerUser_accepts by exact Hprov. unfold_run.
    destruct (bcrypt_genSalt E 10) as [salt|e]; cbn; [|auto].
    destruct (bcrypt_hash E _ salt) as [h|e]; cbn; [|auto].
    destruct (findOne_fault E); cbn; [auto|].
    destruct (find_user _ db) eqn:Hold; cbn; [auto|].
    destruct (save_fault E); cbn; [auto|].
    right. exists h. cbn zeta.
    destruct (jwt_sign E _ _ _); cbn;
      (split; [reflexivity | split; [reflexivity | auto 6]]).
  - rewrite registerUser_rejects by exact Hprov. auto.
Qed.

(** ** What the handlers do to the collection *)

(** X1. A login never writes: whatever the request and the environment,
    the collection after [loginUser] is the collection before, and the
    handler makes no salting, hashing or saving call. *)
Theorem loginUser_never_writes (E : Env) (req : Request) (db : Collection) :
  store_of (loginUser E req db) = db
  /\ existsb hashes_or_saves (calls_of (loginUser E req db)) = false.
Proof.
  destruct (login_fields_provided req) eqn:Hprov.
  - rewrite loginUser_accepts by exact Hprov. unfold_run.
    destruct (findOne_fault E); cbn; [auto|].
    destruct (find_user _ db); cbn; [|auto].
    destruct (bcrypt_compare E _ _) as [[|]|e]; cbn; auto.
    destruct (jwt_sign E _ _ _); cbn; auto.
  - rewrite loginUser_rejects by exact Hprov. auto.
Qed.

(** X2. A registration only ever appends: the collection afterwards is the
    old one, or the old one followed by one record.  That record carries the
    request's username, which no stored record had, and it is there exactly
    when the handler's [save] completed. *)
Theorem registerUser_appends_at_most_one
    (E : Env) (req : Request) (db : Collection) :
  (store_of (registerUser E req db) = db
   /\ existsb save_completed (calls_of (registerUser E req db)) = false)
  \/ (exists user,
        store_of (registerUser E req db) = db ++ [user]
        /\ doc_username user = get_prop "username" (body req)
        /\ find_user (get_prop "username" (body req)) db = None
        /\ existsb save_completed (calls_of (registerUser E req db)) = true).
Proof.
  destruct (register_fields_provided req) eqn:Hprov.
  - rewrite registerUser_accepts by exact Hprov. unfold_run.
    destruct (bcrypt_genSalt E 10) as [salt|e]; cbn; [|auto].
    destruct (bcrypt_hash E _ salt) as [h|e]; cbn; [|auto].
    destruct (findOne_fault E); cbn; [auto|].
    destruct (find_user _ db) eqn:Hold; cbn; [auto|].
    destruct (save_fault E); cbn; [auto|].
    right.
    exists (UserModel E (set_prop "password" (JStr h) (body req))).
    destruct (jwt_sign E _ _ _); cbn;
      (split; [reflexivity|];
       split; [exact (UserModel_username E (body req) (JStr h))|];
       split; reflexivity).
  - rewrite registerUser_rejects by exact Hprov. auto.
Qed.

(** X3. A registration never hides or changes an existing account: a
    username that was found before the call is found afterwards, with the
    same record, whatever the request and whatever fails. *)
Theorem registerUser_preserves_lookups
    (E : Env) (req : Request) (db : Collection) (q : jsval) (u : UserDoc) :
  find_user q db = Some u ->
  find_user q (store_of (registerUser E req db)) = Some u.
Proof.
  intros Hu.
  destruct (registerUser_store E req db) as [-> | (h & Hstore & _)];
    [exact Hu|].
  cbn zeta in Hstore. rewrite Hstore. apply find_user_app_old, Hu.
Qed.

Lemma registerUser_preserves_lookups_witness :
  find_user (JStr "alice")
    (store_of (registerUser Demo.demo_env Faults.bob [Demo.alice_doc]))
  = Some Demo.alice_doc.
Proof.
  apply (registerUser_preserves_lookups Demo.demo_env Faults.bob
           [Demo.alice_doc] (JStr "alice") Demo.alice_doc).
  reflexivity.
Defined.

(** X4. Sequential registrations keep usernames unique: if no two records
    of the collection share a username before [registerUser], none do
    afterwards. *)
Theorem registerUser_keeps_usernames_unique
    (E : Env) (req : Request) (db : Collection) :
  NoDup (usernames db) ->
  NoDup (usernames (store_of (registerUser E req db))).
Proof.
  intros Hnodup.
  destruct (registerUser_store E req db) as [-> | (h & Hstore & Hfresh & _)];
    [exact Hnodup|].
  cbn zeta in Hstore. rewrite Hstore.
  unfold usernames. rewrite map_app. cbn [map].
  rewrite UserModel_username.
  apply find_user_None_not_In in Hfresh.
  clear Hstore. fold (usernames db) in *.
  induction (usernames db) as [|x l IH]; cbn.
  - constructor; [intros [] | constructor].
  - inversion Hnodup as [|? ? Hx Hl]; subst.
    constructor.
    + rewrite in_app_iff. intros [Hin | [Heq | []]]; [exact (Hx Hin)|].
      apply Hfresh. left. symmetry. exact Heq.
    + apply IH; [exact Hl|]. intros Hin. apply Hfresh. right. exact Hin.
Qed.

Lemma registerUser_keeps_usernames_unique_witness :
  NoDup (usernames
           (store_of (registerUser Demo.demo_env Faults.bob
                                   [Demo.alice_doc]))).
Proof.
  apply (registerUser_keeps_usernames_unique Demo.demo_env Faults.bob
           [Demo.alice_doc]).
  cbn. constructor; [intros [] | constructor].
Defined.

(** ** Registration followed by login *)

(** X5. After a registration answered 200 with a user, a login for the same
    username (lookup answering) finds exactly that user: it answers 200 with
    that user when [compare] accepts the candidate against the stored hash
    (the signer completing), and 400 "Incorrect password" when [compare]
    rejects it. *)
Theorem register_then_login
    (E1 E2 : Env) (req req' : Request) (db : Collection)
    (user : UserDoc) (token : string) :
  response_of (registerUser E1 req db)
  = Returned (mkResponse 200 (BUserToken user token)) ->
  get_prop "username" (body req') = get_prop "username" (body req) ->
  truthy (get_prop "password" (body req')) = true ->
  findOne_fault E2 = None ->
  find_user (get_prop "username" (body req'))
            (store_of (registerUser E1 req db)) = Some user
  /\ (bcrypt_compare E2 (get_prop "password" (body req')) (doc_password user)
      = Returned true ->
      signing_succeeds E2 ->
      exists token',
        response_of (loginUser E2 req' (store_of (registerUser E1 req db)))
        = Returned (mkResponse 200 (BUserToken user token')))
  /\ (bcrypt_compare E2 (get_prop "password" (body req')) (doc_password user)
      = Returned false ->
      response_of (loginUser E2 req' (store_of (registerUser E1 req db)))
      = Returned (mkResponse 400 (BString "Incorrect password"))).
Proof.
  intros Hresp Hsame Hpw Hfind.
  destruct (registerUser_200 E1 req db _ Hresp eq_refl)
    as (salt & h & tok & Hprov & _ & _ & Hfresh & _ & Hrun).
  cbn zeta in Hrun. rewrite Hrun in *. cbn in Hresp.
  injection Hresp as Huser _. cbn [store_of fst snd].
  assert (Hfound : find_user (get_prop "username" (body req'))
                     (db ++ [user]) = Some user).
  { rewrite Hsame, <- Huser.
    apply find_user_app_new; [exact Hfresh | apply UserModel_username]. }
  rewrite Huser.
  assert (Hprov' : login_fields_provided req' = true).
  { unfold login_fields_provided. rewrite Hpw, Hsame.
    unfold register_fields_provided in Hprov.
    destruct (truthy (get_prop "username" (body req)));
      [reflexivity | discriminate]. }
  split; [exact Hfound|].
  rewrite loginUser_accepts by exact Hprov'.
  unfold_run. rewrite Hfind, Hfound.
  split.
  - intros Hcmp Hsign.
    destruct (Hsign (mkPayload (doc_username user) (doc_id user))
                    (mkOptions "1h")) as (token' & Htok & _).
    exists token'. rewrite Hcmp. cbn. rewrite Htok. reflexivity.
  - intros Hcmp. rewrite Hcmp. reflexivity.
Qed.

Lemma register_then_login_witness :
  find_user (JStr "alice")
            (store_of (registerUser Demo.demo_env Demo.alice []))
  = Some Demo.alice_doc
  /\ (exists token',
        response_of (loginUser Demo.demo_env
                       (mkRequest (Demo.credentials "alice" "pw123"))
                       (store_of (registerUser Demo.demo_env Demo.alice [])))
        = Returned (mkResponse 200 (BUserToken Demo.alice_doc token')))
  /\ response_of (loginUser Demo.demo_env
                    (mkRequest (Demo.credentials "alice" "guess"))
                    (store_of (registerUser Demo.demo_env Demo.alice [])))
     = Returned (mkResponse 400 (BString "Incorrect password")).
Proof.
  split; [|split].
  - apply (register_then_login Demo.demo_env Demo.demo_env Demo.alice
             (mkRequest (Demo.credentials "alice" "pw123")) []
             Demo.alice_doc Demo.alice_token); reflexivity.
  - apply (register_then_login Demo.demo_env Demo.demo_env Demo.alice
             (mkRequest (Demo.credentials "alice" "pw123")) []
             Demo.alice_doc Demo.alice_token);
      try reflexivity.
    intros p o. eexists. split; [reflexivity | discriminate].
  - apply (register_then_login Demo.demo_env Demo.demo_env Demo.alice
             (mkRequest (Demo.credentials "alice" "guess")) []
             Demo.alice_doc Demo.alice_token); reflexivity.
Defined.

(** ** The order of the calls *)

(** X6. [registerUser] salts and hashes before it looks the username up.
    For a username that is already stored the handler has made exactly
    three calls when it answers: salt, hash, lookup.  And when the salt or
    the hash raises, the handler answers 500 without any lookup, whether
    or not the username is stored. *)
Theorem hashing_precedes_lookup (E : Env) (req : Request) (db : Collection) :
  register_fields_provided req = true ->
  (forall old salt h,
      find_user (get_prop "username" (body req)) db = Some old ->
      bcrypt_genSalt E 10 = Returned salt ->
      bcrypt_hash E (get_prop "password" (body req)) salt = Returned h ->
      findOne_fault E = None ->
      calls_of (registerUser E req db)
      = [CGenSalt 10 (Returned salt);
         CHash (get_prop "password" (body req)) salt (Returned h);
         CFindOne (get_prop "username" (body req)) (Returned (Some old))])
  /\ (raised (bcrypt_genSalt E 10) = true
      \/ (exists salt,
            bcrypt_genSalt E 10 = Returned salt
            /\ raised (bcrypt_hash E (get_prop "password" (body req)) salt)
               = true) ->
      existsb is_findOne (calls_of (registerUser E req db)) = false
      /\ response_of (registerUser E req db)
         = Returned (mkResponse 500
                       (BMessage "Server Error during registration"))).
Proof.
  intros Hprov.
  rewrite registerUser_accepts by exact Hprov. unfold_run.
  split.
  - intros old salt h Hold Hsalt Hhash Hfind.
    rewrite Hsalt, Hhash, Hfind, Hold. reflexivity.
  - intros [Hsalt | (salt & Hsalt & Hhash)].
    + destruct (bcrypt_genSalt E 10); [discriminate|]. split; reflexivity.
    + rewrite Hsalt.
      destruct (bcrypt_hash E _ salt); [discriminate|]. split; reflexivity.
Qed.

Lemma hashing_precedes_lookup_witness :
  calls_of (registerUser Demo.demo_env Demo.alice [Demo.alice_doc])
  = [CGenSalt 10 (Returned "s4lt");
     CHash (JStr "pw123") "s4lt" (Returned "s4ltpw123");
     CFindOne (JStr "alice") (Returned (Some Demo.alice_doc))]
  /\ (existsb is_findOne
        (calls_of (registerUser Faults.hash_down Demo.alice [Demo.alice_doc]))
      = false
      /\ response_of (registerUser Faults.hash_down Demo.alice
                                   [Demo.alice_doc])
         = Returned (mkResponse 500
                       (BMessage "Server Error during registration"))).
Proof.
  split.
  - apply (proj1 (hashing_precedes_lookup Demo.demo_env Demo.alice
                    [Demo.alice_doc] eq_refl)); reflexivity.
  - apply (proj2 (hashing_precedes_lookup Faults.hash_down Demo.alice
                    [Demo.alice_doc] eq_refl)).
    right. exists "s4lt". split; reflexivity.
Defined.

(** X10. No token without verification.  [loginUser] calls the signer only
    after the lookup found a user and [compare] returned [true] for the
    candidate against that user's stored password, and it calls [compare]
    only when a user was found; [registerUser] calls the signer only after
    its [save] completed for a username that was not stored. *)
Theorem token_only_after_verification
    (E : Env) (req : Request) (db : Collection) :
  (existsb is_sign (calls_of (loginUser E req db)) = true ->
   exists user,
     find_user (get_prop "username" (body req)) db = Some user
     /\ bcrypt_compare E (get_prop "password" (body req)) (doc_password user)
        = Returned true)
  /\ (existsb is_compare (calls_of (loginUser E req db)) = true ->
      exists user,
        find_user (get_prop "username" (body req)) db = Some user)
  /\ (existsb is_sign (calls_of (registerUser E req db)) = true ->
      existsb save_completed (calls_of (registerUser E req db)) = true
      /\ find_user (get_prop "username" (body req)) db = None).
Proof.
  split; [|split].
  - destruct (login_fields_provided req) eqn:Hprov.
    + rewrite loginUser_accepts by exact Hprov. unfold_run.
      destruct (findOne_fault E); cbn; [discriminate|].
      destruct (find_user _ db) as [user|]; cbn; [|discriminate].
      destruct (bcrypt_compare E _ _) as [[|]|e] eqn:Hcmp; cbn;
        try discriminate.
      intros _. exists user. split; [reflexivity | exact Hcmp].
    + rewrite loginUser_rejects by exact Hprov. discriminate.
  - destruct (login_fields_provided req) eqn:Hprov.
    + rewrite loginUser_accepts by exact Hprov. unfold_run.
      destruct (findOne_fault E); cbn; [discriminate|].
      destruct (find_user _ db) as [user|]; cbn; [|discriminate].
      intros _. exists user. reflexivity.
    + rewrite loginUser_rejects by exact Hprov. discriminate.
  - destruct (register_fields_provided req) eqn:Hprov.
    + rewrite registerUser_accepts by exact Hprov. unfold_run.
      destruct (bcrypt_genSalt E 10) as [salt|e]; cbn; [|discriminate].
      destruct (bcrypt_hash E _ salt) as [h|e]; cbn; [|discriminate].
      destruct (findOne_fault E); cbn; [discriminate|].
      destruct (find_user _ db) eqn:Hold; cbn; [discriminate|].
      destruct (save_fault E); cbn; [discriminate|].
      destruct (jwt_sign E _ _ _); cbn; intros _; split; reflexivity.
    + rewrite registerUser_rejects by exact Hprov. discriminate.
Qed.

Lemma token_only_after_verification_witness :
  (exists user,
      find_user (JStr "alice") [Demo.alice_doc] = Some user
      /\ bcrypt_compare Demo.demo_env (JStr "pw123") (doc_password user)
         = Returned true)
  /\ (exists user, find_user (JStr "alice") [Demo.alice_doc] = Some user)
  /\ (existsb save_completed
        (calls_of (registerUser Demo.no_key Demo.alice [])) = true
      /\ find_user (JStr "alice") [] = None).
Proof.
  split; [|split].
  - apply (proj1 (token_only_after_verification Demo.demo_env
                    (mkRequest (Demo.credentials "alice" "pw123"))
                    [Demo.alice_doc])).
    reflexivity.
  - apply (proj1 (proj2 (token_only_after_verification Demo.demo_env
                           (mkRequest (Demo.credentials "alice" "wrong"))
                           [Demo.alice_doc]))).
    reflexivity.
  - apply (proj2 (proj2 (token_only_after_verification Demo.no_key
                           Demo.alice []))).
    reflexivity.
Defined.

(** ** The shape of the answers *)

(** X7. The body goes with the status, but not in one shape.  Every answer
    of [registerUser] other than 200 is a [{ message }] object.  [loginUser]
    answers 404 and the wrong-password 400 with a bare string, and the
    missing-field 400 and the 500 with a [{ message }] object: a 400 of
    [loginUser] is an object exactly when the guard rejected the request.
    A 200 of either handler carries [{ user, token }]. *)
Theorem response_body_shapes
    (E : Env) (req : Request) (db : Collection) (resp : Response) :
  (response_of (registerUser E req db) = Returned resp ->
   (status resp = 200%Z -> exists user token, json resp = BUserToken user token)
   /\ (status resp <> 200%Z -> exists m, json resp = BMessage m))
  /\ (response_of (loginUser E req db) = Returned resp ->
      (status resp = 200%Z ->
       exists user token, json resp = BUserToken user token)
      /\ (status resp = 404%Z -> json resp = BString "User not found")
      /\ (status resp = 400%Z ->
          json resp
          = if login_fields_provided req
            then BString "Incorrect password"
            else BMessage "Username and password are required.")
      /\ (status resp = 500%Z ->
          json resp = BMessage "Server Error during login")).
Proof.
  split; intros Hresp.
  - destruct (register_fields_provided req) eqn:Hprov.
    + rewrite registerUser_accepts in Hresp by exact Hprov. unfold_run.
      destruct (bcrypt_genSalt E 10) as [salt|e]; cbn in Hresp;
        [|injection Hresp as <-; cbn; split; [discriminate | eauto]].
      destruct (bcrypt_hash E _ salt) as [h|e]; cbn in Hresp;
        [|injection Hresp as <-; cbn; split; [discriminate | eauto]].
      destruct (findOne_fault E); cbn in Hresp;
        [injection Hresp as <-; cbn; split; [discriminate | eauto]|].
      destruct (find_user _ db); cbn in Hresp;
        [injection Hresp as <-; cbn; split; [discriminate | eauto]|].
      destruct (save_fault E); cbn in Hresp;
        [injection Hresp as <-; cbn; split; [discriminate | eauto]|].
      destruct (jwt_sign E _ _ _); cbn in Hresp; injection Hresp as <-; cbn.
      * split; [eauto | intros H; contradiction H; reflexivity].
      * split; [discriminate | eauto].
    + rewrite registerUser_rejects in Hresp by exact Hprov.
      injection Hresp as <-. cbn. split; [discriminate | eauto].
  - destruct (login_fields_provided req) eqn:Hprov.
    + rewrite loginUser_accepts in Hresp by exact Hprov. unfold_run.
      destruct (findOne_fault E); cbn in Hresp;
        [injection Hresp as <-; cbn; repeat split; discriminate|].
      destruct (find_user _ db) as [user|]; cbn in Hresp;
        [|injection Hresp as <-; cbn; repeat split; discriminate].
      destruct (bcrypt_compare E _ _) as [[|]|e]; cbn in Hresp;
        try (injection Hresp as <-; cbn; repeat split; discriminate).
      destruct (jwt_sign E _ _ _); cbn in Hresp; injection Hresp as <-; cbn.
      * split; [eauto | repeat split; discriminate].
      * repeat split; discriminate.
    + rewrite loginUser_rejects in Hresp by exact Hprov.
      injection Hresp as <-. cbn. repeat split; discriminate.
Qed.

Lemma response_body_shapes_witness :
  (exists m, BMessage "User already exists" = BMessage m)
  /\ BString "Incorrect password"
     = (if login_fields_provided
             (mkRequest (Demo.credentials "alice" "wrong"))
        then BString "Incorrect password"
        else BMessage "Username and password are required.").
Proof.
  split.
  - apply (proj1 (response_body_shapes Demo.demo_env Demo.alice
                    [Demo.alice_doc]
                    (mkResponse 400 (BMessage "User already exists")))
                 eq_refl).
    discriminate.
  - apply (proj2 (response_body_shapes Demo.demo_env
                    (mkRequest (Demo.credentials "alice" "wrong"))
                    [Demo.alice_doc]
                    (mkResponse 400 (BString "Incorrect password")))
                 eq_refl).
    reflexivity.
Defined.

(** ** What is logged *)

(** X11. The handlers write to the console exactly when they answer 500,
    and then once, as their last action, with the message of the error of
    the call that raised; on every other answer nothing is logged. *)
Theorem failure_is_logged_once
    (E : Env) (req : Request) (db : Collection) (resp : Response) :
  (response_of (registerUser E req db) = Returned resp ->
   let calls := calls_of (registerUser E req db) in
   (status resp = 500%Z ->
    exists e,
      first_error calls = Some e
      /\ last calls (CGenSalt 10 (Raised e))
         = CConsoleError "Error during registration:" (message e)
      /\ length (filter is_console_error calls) = 1)
   /\ (status resp <> 500%Z -> existsb is_console_error calls = false))
  /\ (response_of (loginUser E req db) = Returned resp ->
      let calls := calls_of (loginUser E req db) in
      (status resp = 500%Z ->
       exists e,
         first_error calls = Some e
         /\ last calls (CGenSalt 10 (Raised e))
            = CConsoleError "Error during login:" (message e)
         /\ length (filter is_console_error calls) = 1)
      /\ (status resp <> 500%Z -> existsb is_console_error calls = false)).
Proof.
  split; intros Hresp; cbn zeta.
  - destruct (register_fields_provided req) eqn:Hprov.
    + rewrite registerUser_accepts in * by exact Hprov. unfold_run.
      destruct (bcrypt_genSalt E 10) as [salt|e]; cbn in *;
        [|injection Hresp as <-; split;
          [intros _; exists e; repeat split
          | intros H; contradiction H; reflexivity]].
      destruct (bcrypt_hash E _ salt) as [h|e]; cbn in *;
        [|injection Hresp as <-; split;
          [intros _; exists e; repeat split
          | intros H; contradiction H; reflexivity]].
      destruct (findOne_fault E) as [e|]; cbn in *;
        [injection Hresp as <-; split;
          [intros _; exists e; repeat split
          | intros H; contradiction H; reflexivity]|].
      destruct (find_user _ db); cbn in *;
        [injection Hresp as <-; split; [discriminate | reflexivity]|].
      destruct (save_fault E) as [e|]; cbn in *;
        [injection Hresp as <-; split;
          [intros _; exists e; repeat split
          | intros H; contradiction H; reflexivity]|].
      destruct (jwt_sign E _ _ _) as [token|e]; cbn in *;
        injection Hresp as <-; split.
      * discriminate.
      * reflexivity.
      * intros _. exists e. repeat split.
      * intros H. contradiction H. reflexivity.
    + rewrite registerUser_rejects in * by exact Hprov. cbn in *.
      injection Hresp as <-. split; [discriminate | reflexivity].
  - destruct (login_fields_provided req) eqn:Hprov.
    + rewrite loginUser_accepts in * by exact Hprov. unfold_run.
      destruct (findOne_fault E) as [e|]; cbn in *;
        [injection Hresp as <-; split;
          [intros _; exists e; repeat split
          | intros H; contradiction H; reflexivity]|].
      destruct (find_user _ db) as [user|]; cbn in *;
        [|injection Hresp as <-; split; [discriminate | reflexivity]].
      destruct (bcrypt_compare E _ _) as [[|]|e]; cbn in *.
      * destruct (jwt_sign E _ _ _) as [token|e]; cbn in *;
          injection Hresp as <-; split.
        -- discriminate.
        -- reflexivity.
        -- intros _. exists e. repeat split.
        -- intros H. contradiction H. reflexivity.
      * injection Hresp as <-. split; [discriminate | reflexivity].
      * injection Hresp as <-. split;
          [intros _; exists e; repeat split
          | intros H; contradiction H; reflexivity].
    + rewrite loginUser_rejects in * by exact Hprov. cbn in *.
      injection Hresp as <-. split; [discriminate | reflexivity].
Qed.

Lemma failure_is_logged_once_witness :
  (exists e,
      first_error (calls_of (registerUser Demo.db_down Demo.alice []))
      = Some e
      /\ last (calls_of (registerUser Demo.db_down Demo.alice []))
              (CGenSalt 10 (Raised e))
         = CConsoleError "Error during registration:" (message e)
      /\ length (filter is_console_error
                   (calls_of (registerUser Demo.db_down Demo.alice []))) = 1)
  /\ existsb is_console_error
       (calls_of (loginUser Demo.demo_env
                    (mkRequest (Demo.credentials "bob" "pw123"))
                    [Demo.alice_doc])) = false.
Proof.
  split.
  - apply (proj1 (failure_is_logged_once Demo.db_down Demo.alice []
                    (mkResponse 500
                       (BMessage "Server Error during registration")))
                 eq_refl).
    reflexivity.
  - apply (proj2 (failure_is_logged_once Demo.demo_env
                    (mkRequest (Demo.credentials "bob" "pw123"))
                    [Demo.alice_doc]
                    (mkResponse 404 (BString "User not found")))
                 eq_refl).
    discriminate.
Defined.

(** ** The thunks and their callbacks *)

(** X9. The [try] block also covers the redirect.  When the HTTP call
    returns but [navigate] raises, the thunk has already dispatched
    AUTH_SUCCESS and then logs the error and dispatches AUTH_FAIL: the store
    sees a success followed by a failure. *)
Theorem navigate_failure_after_success
    (api : Client.Api) (formData : jsobj) (e : Error) :
  (forall r, Client.AuthApi_logIn api formData = Returned r ->
     Client.effects (Client.logIn api formData (raising_navigate e)
                                  Client.store_dispatch)
     = [Client.Dispatch Client.AUTH_START;
        Client.Request_logIn formData;
        Client.Dispatch (Client.AUTH_SUCCESS (Client.data r));
        Client.Navigate "/home" (Client.mkNavigateOptions true);
        Client.ConsoleError "Login Error:" (Client.error_detail e);
        Client.Dispatch Client.AUTH_FAIL])
  /\ (forall r, Client.AuthApi_signUp api formData = Returned r ->
     Client.effects (Client.signUp api formData (raising_navigate e)
                                   Client.store_dispatch)
     = [Client.Dispatch Client.AUTH_START;
        Client.Request_signUp formData;
        Client.Dispatch (Client.AUTH_SUCCESS (Client.data r));
        Client.Navigate "/home" (Client.mkNavigateOptions true);
        Client.ConsoleError "Signup Error:" (Client.error_detail e);
        Client.Dispatch Client.AUTH_FAIL]).
Proof.
  unfold raising_navigate. unfold_thunk.
  split; intros r ->; reflexivity.
Qed.

Lemma navigate_failure_after_success_witness :
  Client.effects
    (Client.logIn Demo.demo_api (Demo.credentials "alice" "pw123")
                  (raising_navigate Faults.router_down)
                  Client.store_dispatch)
  = [Client.Dispatch Client.AUTH_START;
     Client.Request_logIn (Demo.credentials "alice" "pw123");
     Client.Dispatch (Client.AUTH_SUCCESS (JStr "payload"));
     Client.Navigate "/home" (Client.mkNavigateOptions true);
     Client.ConsoleError "Login Error:" (JStr "navigation failed");
     Client.Dispatch Client.AUTH_FAIL].
Proof.
  apply (proj1 (navigate_failure_after_success Demo.demo_api
                  (Demo.credentials "alice" "pw123") Faults.router_down)
               (Client.mkHttpResponse (JStr "payload"))).
  reflexivity.
Defined.
